(** * Mortgage calculator: the class [Mortgage] of [Mortgage_Calculator.py]

    The Python class [Mortgage] computes, with daily compounding, the
    periodic repayment of a fixed-rate loan and the balance that remains
    after a number of years.  The development holds two embeddings of it.

    The first reads a Python [float] as the real number it denotes and
    every operation as the exact one.  It keeps the order of evaluation,
    the exceptions of the code and the distinction between [int] and
    [float] arguments, and serves the statements that do not turn on
    rounding: the label of the summary, the range check, the agreement of
    int and float arguments, the data of [draw_balance_graph] and the
    input loops of [main].  Non-finite values appear there only where they
    decide what the program does next: in the numpy arithmetic of
    [draw_balance_graph], which yields them instead of raising, and in the
    text that [float] accepts in the input loops.

    The second, [Double], is the arithmetic of the interpreter itself:
    IEEE 754 binary64 with its rounding, its infinities and [nan], and
    CPython's [float_pow] with its [OverflowError].  The statements about
    the amounts that [repayments] and [balance_after] compute are made
    there. *)

From Stdlib Require Import Reals Lra Lia ZArith Bool List.
From Stdlib Require Import Ascii String DecimalString.
From Stdlib Require Import Floats.
Import ListNotations.

Open Scope R_scope.

(** ** Outcomes of a Python expression *)

Inductive exn : Type :=
| ValueError (msg : string)
| ZeroDivisionError.

(** [ComplexValue] marks the one place where the interpreter leaves the
    real numbers (a negative base raised to a fractional power yields a
    [complex]); the model follows such a value no further. *)
Inductive outcome (A : Type) : Type :=
| Return (a : A)
| Raise (e : exn)
| ComplexValue.

Arguments Return {A} a.
Arguments Raise {A} e.
Arguments ComplexValue {A}.

Definition bind {A B : Type} (c : outcome A) (f : A -> outcome B) : outcome B :=
  match c with
  | Return a => f a
  | Raise e => Raise e
  | ComplexValue => ComplexValue
  end.

Notation "x <- c ;; k" := (bind c (fun x => k))
  (at level 61, c at next level, right associativity).

(** ** Numbers *)

(** An argument such as [n] of [balance_after] is an [int] or a [float]. *)
Inductive number : Type :=
| PyInt (z : Z)
| PyFloat (x : R).

Definition to_float (a : number) : R :=
  match a with
  | PyInt z => IZR z
  | PyFloat x => x
  end.

(** [a < b] on numbers; Python compares an [int] with a [float] by value. *)
Definition lt_num (a b : number) : bool :=
  match a, b with
  | PyInt x, PyInt y => (x <? y)%Z
  | _, _ => if Rlt_dec (to_float a) (to_float b) then true else false
  end.

(** [a * b]: an [int] when both are, a [float] otherwise. *)
Definition mul_num (a b : number) : number :=
  match a, b with
  | PyInt x, PyInt y => PyInt (x * y)
  | _, _ => PyFloat (to_float a * to_float b)
  end.

(** [a / b] on floats: a zero divisor raises. *)
Definition float_div (a b : R) : outcome R :=
  if Req_dec_T b 0 then Raise ZeroDivisionError else Return (a / b).

(** [d ** e] for a float [d].  An [int] exponent is converted to a float of
    the same value.  Zero to a negative power raises, anything to the power
    zero is one, and a negative base takes integral exponents only. *)
Definition float_pow (d : R) (e : number) : outcome R :=
  match e with
  | PyInt z =>
      if Req_dec_T d 0 then
        if (z <? 0)%Z then Raise ZeroDivisionError else Return (powerRZ d z)
      else Return (powerRZ d z)
  | PyFloat x =>
      if Req_dec_T x 0 then Return 1
      else if Req_dec_T d 0 then
        if Rlt_dec x 0 then Raise ZeroDivisionError else Return 0
      else if Rlt_dec 0 d then Return (Rpower d x)
      else if Req_dec_T (IZR (Int_part x)) x
           then Return (powerRZ d (Int_part x))
           else ComplexValue
  end.

(** ** The class [Mortgage] *)

Record Mortgage : Type := mkMortgage {
  loan : R;          (* loan amount, a float *)
  years : Z;         (* loan term in years, an int *)
  interest : R;      (* annual interest rate in percent, a float *)
  r_frequency : Z    (* days between repayments, an int *)
}.

Definition repayments (self : Mortgage) : outcome R :=
  let L := loan self in
  let Y := years self in
  let p := interest self / 100 in
  let k := r_frequency self in
  let daily_interest_factor := 1 + p / 365 in
  a <- float_pow daily_interest_factor (mul_num (PyInt 365) (PyInt Y)) ;;
  b <- float_pow daily_interest_factor (PyInt k) ;;
  let numerator := L * a * (b - 1) in
  c <- float_pow daily_interest_factor (mul_num (PyInt 365) (PyInt Y)) ;;
  let denominator := c - 1 in
  P0 <- float_div numerator denominator ;;
  Return P0.

Definition balance_after (self : Mortgage) (n : number) : outcome R :=
  if lt_num n (PyInt 0) || lt_num (PyInt (years self)) n then
    Raise (ValueError "n must be between 0 and the total loan term in years.")
  else
    let L := loan self in
    let p := interest self / 100 in
    let k := r_frequency self in
    P0 <- repayments self ;;
    let daily_interest_factor := 1 + p / 365 in
    x <- float_pow daily_interest_factor (mul_num (PyInt 365) n) ;;
    y <- float_pow daily_interest_factor (mul_num (PyInt 365) n) ;;
    z <- float_pow daily_interest_factor (PyInt k) ;;
    q <- float_div (y - 1) (z - 1) ;;
    let Bn := L * x - P0 * q in
    Return Bn.

(** ** Formatting *)

(** [str(z)] for an int. *)
Definition str_int (z : Z) : string :=
  NilZero.string_of_int (Z.to_int z).

(** Two decimal digits, zero padded. *)
Definition two_digits (z : Z) : string :=
  ((if (z <? 10)%Z then "0" else "") ++ str_int z)%string.

(** [f"{x:.2f}"]: the value rounded to two decimals, ties to even, the
    sign kept even when the digits are all zero. *)
Definition format_2f (x : R) : string :=
  let s := 100 * Rabs x in
  let fl := Int_part s in
  let fr := s - IZR fl in
  let q := if Rlt_dec fr (1 / 2) then fl
           else if Rlt_dec (1 / 2) fr then (fl + 1)%Z
           else if Z.even fl then fl else (fl + 1)%Z in
  ((if Rlt_dec x 0 then "-" else "")
   ++ str_int (q / 100) ++ "." ++ two_digits (q mod 100))%string.

(** [d.get(key, default)] on a dict written as its list of items. *)
Fixpoint dict_get (d : list (Z * string)) (key : Z) (default : string) : string :=
  match d with
  | [] => default
  | (k, v) :: rest => if (k =? key)%Z then v else dict_get rest key default
  end.

Definition frequency_map : list (Z * string) :=
  [(7%Z, "Weekly"%string); (14%Z, "Fortnightly"%string); (30%Z, "Monthly"%string)].

Definition frequency_str (self : Mortgage) : string :=
  dict_get frequency_map (r_frequency self)
           (str_int (r_frequency self) ++ " days")%string.

Definition nl : string := String (ascii_of_nat 10) EmptyString.

(** The three lines of the summary that precede the repayment line. *)
Definition summary_head (self : Mortgage) : string :=
  ("Loan Amount: " ++ format_2f (loan self) ++ " AUD" ++ nl
   ++ "Loan Term (Years): " ++ str_int (years self) ++ nl
   ++ "Interest: " ++ format_2f (interest self) ++ "%" ++ nl)%string.

Definition __str__ (self : Mortgage) : outcome string :=
  repayment_amount <- repayments self ;;
  Return ("Loan Amount: " ++ format_2f (loan self) ++ " AUD" ++ nl
          ++ "Loan Term (Years): " ++ str_int (years self) ++ nl
          ++ "Interest: " ++ format_2f (interest self) ++ "%" ++ nl
          ++ frequency_str self ++ " Repayments: "
          ++ format_2f repayment_amount ++ " AUD")%string.

(** ** The formulas as the specification writes them *)

Definition dailyFactor (t : Mortgage) : R :=
  1 + (interest t / 100) / 365.

(** repayment = principal * dailyFactor^(365*n) * (dailyFactor^k - 1)
                / (dailyFactor^(365*n) - 1) *)
Definition spec_repayment (t : Mortgage) : R :=
  loan t * powerRZ (dailyFactor t) (365 * years t)
    * (powerRZ (dailyFactor t) (r_frequency t) - 1)
    / (powerRZ (dailyFactor t) (365 * years t) - 1).

(** balance = principal * dailyFactor^(365*m)
              - P0 * (dailyFactor^(365*m) - 1) / (dailyFactor^k - 1) *)
Definition spec_balance (t : Mortgage) (P0 : R) (m : Z) : R :=
  loan t * powerRZ (dailyFactor t) (365 * m)
  - P0 * (powerRZ (dailyFactor t) (365 * m) - 1)
    / (powerRZ (dailyFactor t) (r_frequency t) - 1).

(** Loan terms as the input collaborator supplies them. *)
Definition supported_frequency (k : Z) : Prop :=
  k = 7%Z \/ k = 14%Z \/ k = 30%Z.

Record valid (t : Mortgage) : Prop := mkValid {
  valid_loan : 0 < loan t;
  valid_years : (0 < years t)%Z;
  valid_interest : 0 < interest t;
  valid_frequency : supported_frequency (r_frequency t)
}.

(** A loan used to exercise the statements: 1000 over 2 years at 3.65 %
    (a daily factor of 1.0001), repaid weekly. *)
Definition sample : Mortgage := mkMortgage 1000 2 (365 / 100) 7.

(** The same loan with nothing borrowed, and with an interval of 10 days. *)
Definition zero_principal : Mortgage := mkMortgage 0 2 (365 / 100) 7.
Definition ten_days : Mortgage := mkMortgage 1000 2 (365 / 100) 10.

(** ** The data of [draw_balance_graph] *)

(** The years that [draw_balance_graph] plots are the elements of a numpy
    array, and arithmetic on a numpy scalar does not raise: where Python
    raises [ZeroDivisionError], numpy warns and yields [inf] or [nan].  A
    numpy result is therefore a real number or [NonFinite], which stands
    for [inf], [-inf] and [nan] alike. *)
Inductive float64 : Type :=
| Finite (x : R)
| NonFinite.

(** [d ** e] for a Python float [d] and a numpy integer [e]. *)
Definition np_pow (d : R) (e : Z) : float64 :=
  if Req_dec_T d 0 then
    if (e <? 0)%Z then NonFinite else Finite (powerRZ d e)
  else Finite (powerRZ d e).

(** An operation that is finite on finite operands; in the expressions
    below a non-finite operand always gives a non-finite result. *)
Definition np_lift (f : R -> R -> R) (a b : float64) : float64 :=
  match a, b with
  | Finite x, Finite y => Finite (f x y)
  | _, _ => NonFinite
  end.

(** [a / b] for a numpy float [a] and a Python float [b]. *)
Definition np_div (a : float64) (b : R) : float64 :=
  if Req_dec_T b 0 then NonFinite else np_lift Rdiv a (Finite b).

(** [balance_after] as it runs on a numpy integer [n]: the guard, the call
    of [repayments] and [daily_interest_factor ** k] are Python's own and
    raise as before; the power [** (365 * n)] and all that is computed
    from it are numpy's.  (The product [365 * n] stays far inside the
    64-bit range for any array of years that fits in memory.) *)
Definition balance_after_int64 (self : Mortgage) (n : Z) : outcome float64 :=
  if (n <? 0)%Z || (years self <? n)%Z then
    Raise (ValueError "n must be between 0 and the total loan term in years.")
  else
    let L := loan self in
    let p := interest self / 100 in
    let k := r_frequency self in
    P0 <- repayments self ;;
    let daily_interest_factor := 1 + p / 365 in
    let x := np_pow daily_interest_factor (365 * n) in
    let y := np_pow daily_interest_factor (365 * n) in
    z <- float_pow daily_interest_factor (PyInt k) ;;
    let q := np_div (np_lift Rminus y (Finite 1)) (z - 1) in
    let Bn := np_lift Rminus (np_lift Rmult (Finite L) x)
                             (np_lift Rmult (Finite P0) q) in
    Return Bn.

(** [np.arange(start, stop)] on ints: [start], ..., [stop - 1]. *)
Definition arange (start stop : Z) : list Z :=
  map (fun i => (start + Z.of_nat i)%Z) (seq 0 (Z.to_nat (stop - start))).

(** [[f(n) for n in l]]: the first exception ends the comprehension. *)
Fixpoint comprehension {A B : Type} (f : A -> outcome B) (l : list A)
  : outcome (list B) :=
  match l with
  | [] => Return []
  | n :: rest =>
      v <- f n ;;
      vs <- comprehension f rest ;;
      Return (v :: vs)
  end.

(** [draw_balance_graph] up to the drawing: the x and y data that it hands
    to [plt.plot]. *)
Definition draw_balance_graph (self : Mortgage)
  : outcome (list Z * list float64) :=
  let years := arange 1 (years self + 1) in
  remaining_balances <- comprehension (balance_after_int64 self) years ;;
  Return (years, remaining_balances).

(** ** The input loops of [main] *)

(** What [float(s)] can give: text such as "inf" and "nan" is accepted and
    gives a value that is no real number. *)
Inductive float_value : Type :=
| Real (x : R)
| PosInf
| NegInf
| NaN.

(** [value <= 0] on a float; every comparison with [nan] is false. *)
Definition float_le_zero (value : float_value) : bool :=
  match value with
  | Real x => if Rle_dec x 0 then true else false
  | NegInf => true
  | PosInf => false
  | NaN => false
  end.

(** What reaches the terminal: the prompt of an [input] call, or a line
    written by [print]. *)
Inductive event : Type :=
| Prompt (s : string)
| Print (s : string).

(** A computation that reads lines from the standard input either ends
    with a value, the lines not yet read and what it wrote, or meets the
    end of the input, which no handler in [main] catches. *)
Inductive console (A : Type) : Type :=
| Done (value : A) (stdin : list string) (out : list event)
| EOFError (out : list event).

Arguments Done {A} value stdin out.
Arguments EOFError {A} out.

(** What was written before [c] ran, followed by what [c] writes. *)
Definition emit {A : Type} (before : list event) (c : console A) : console A :=
  match c with
  | Done value stdin out => Done value stdin (before ++ out)
  | EOFError out => EOFError (before ++ out)
  end.

Definition and_then {A B : Type} (c : console A)
  (f : A -> list string -> console B) : console B :=
  match c with
  | Done value stdin out => emit out (f value stdin)
  | EOFError out => EOFError out
  end.

Definition dq : string := String (ascii_of_nat 34) EmptyString.

Module Main.

Section InputLoops.

(** [float(s)] and [int(s)]: [None] is the [ValueError] of text that
    does not parse. *)
Variable float : string -> option float_value.
Variable int : string -> option Z.

Definition should_be_positive (input_name : string) : string :=
  ("Value of " ++ dq ++ input_name ++ dq
   ++ " should be positive. Try again...")%string.

Fixpoint get_positive_float (prompt input_name : string)
  (stdin : list string) : console float_value :=
  match stdin with
  | [] => EOFError [Prompt prompt]
  | line :: rest =>
      match float line with
      | Some value =>
          if float_le_zero value then
            emit [Prompt prompt; Print (should_be_positive input_name)]
                 (get_positive_float prompt input_name rest)
          else Done value rest [Prompt prompt]
      | None =>
          emit [Prompt prompt; Print "Not a valid float value. Try again..."]
               (get_positive_float prompt input_name rest)
      end
  end.

Fixpoint get_positive_int (prompt input_name : string)
  (stdin : list string) : console Z :=
  match stdin with
  | [] => EOFError [Prompt prompt]
  | line :: rest =>
      match int line with
      | Some value =>
          if (value <=? 0)%Z then
            emit [Prompt prompt; Print (should_be_positive input_name)]
                 (get_positive_int prompt input_name rest)
          else Done value rest [Prompt prompt]
      | None =>
          emit [Prompt prompt; Print "Not a valid int value. Try again..."]
               (get_positive_int prompt input_name rest)
      end
  end.

Definition frequency_map : list Z := [7%Z; 14%Z; 30%Z].

Definition frequency_prompt : string :=
  "Enter the replayment frequency in days (7, 14 or 30):".

Fixpoint get_repayment_frequency (stdin : list string) : console Z :=
  match stdin with
  | [] => EOFError [Prompt frequency_prompt]
  | choice :: rest =>
      match int choice with
      | Some choice =>
          if existsb (Z.eqb choice) frequency_map then
            Done choice rest [Prompt frequency_prompt]
          else
            emit [Prompt frequency_prompt;
                  Print "Value of frequency should be 7, 14 or 30. Try again..."]
                 (get_repayment_frequency rest)
      | None =>
          emit [Prompt frequency_prompt;
                Print "Not a valid int value. Try again..."]
               (get_repayment_frequency rest)
      end
  end.

(** The first part of [main]: the four inputs, in the order they are
    asked for, with the empty lines printed in between. *)
Definition collect_inputs (stdin : list string)
  : console (float_value * Z * float_value * Z) :=
  and_then (get_positive_float "Enter Loan Amount in AUD: " "loan" stdin)
    (fun loan stdin =>
  emit [Print EmptyString]
    (and_then (get_positive_int "Enter Loan Term in Years: " "year" stdin)
    (fun years stdin =>
  emit [Print EmptyString]
    (and_then (get_positive_float "Enter the Bank's Interest Rate in %: "
                                  "interest" stdin)
    (fun interest stdin =>
  emit [Print EmptyString]
    (and_then (get_repayment_frequency stdin)
    (fun r_frequency stdin =>
       Done (loan, years, interest, r_frequency) stdin []))))))).

End InputLoops.

End Main.

(** Readers of a few numerals, to exercise the loops. *)
Definition int_sample (s : string) : option Z :=
  if String.eqb s "0" then Some 0%Z
  else if String.eqb s "2" then Some 2%Z
  else if String.eqb s "7" then Some 7%Z
  else if String.eqb s "10" then Some 10%Z
  else None.

Definition float_sample (s : string) : option float_value :=
  if String.eqb s "nan" then Some NaN
  else if String.eqb s "-5" then Some (Real (-5))
  else if String.eqb s "1000" then Some (Real 1000)
  else if String.eqb s "3.65" then Some (Real (365 / 100))
  else None.
(** Not negative: a float whose sign bit is clear, or [nan]. *)
Definition not_negative (x : spec_float) : Prop :=
  match x with
  | S754_zero s | S754_infinity s | S754_finite s _ _ => s = false
  | S754_nan => True
  end.

(** ** The class [Mortgage] in double precision *)

(** The second embedding keeps the arithmetic of the interpreter: a Python
    [float] is an IEEE 754 binary64 value with its rounding, its infinities
    and its [nan], and [**] is CPython's [float_pow], which settles the
    special cases itself and leaves the rest to the [pow] of the platform's
    C library.  What that [pow] answers is not fixed here: a computation
    is a tree that asks for it, and a statement about a run holds for
    whatever it answers. *)
Module Double.

Local Open Scope float_scope.

Inductive exn : Type :=
| ValueError (msg : string)       (* raised by the code itself *)
| ErrnoValueError (code : Z)      (* built by CPython from an errno of pow *)
| ZeroDivisionError
| OverflowError.

(** What [pow] leaves in [errno]. *)
Inductive errno : Type :=
| NoError
| ERANGE
| Errno (code : Z).

(** [ComplexValue]: a negative base raised to a fractional power gives a
    [complex], and the computation is not followed into complex
    arithmetic. *)
Inductive py (A : Type) : Type :=
| Ret (a : A)
| Raise (e : exn)
| ComplexValue
| LibmPow (x y : float) (k : float -> errno -> py A).

Arguments Ret {A} a.
Arguments Raise {A} e.
Arguments ComplexValue {A}.
Arguments LibmPow {A} x y k.

Fixpoint bind {A B : Type} (c : py A) (f : A -> py B) : py B :=
  match c with
  | Ret a => f a
  | Raise e => Raise e
  | ComplexValue => ComplexValue
  | LibmPow x y k => LibmPow x y (fun r e => bind (k r e) f)
  end.

Notation "x <~ c ;; k" := (bind c (fun x => k))
  (at level 61, c at next level, right associativity).

(** A computation run against one [pow]. *)
Fixpoint run {A : Type} (pow : float -> float -> float * errno) (c : py A)
  : py A :=
  match c with
  | LibmPow x y k => let (r, e) := pow x y in run pow (k r e)
  | _ => c
  end.

Inductive number : Type :=
| PyInt (z : Z)
| PyFloat (x : float).

(** An int as a float ([PyLong_AsDouble]): rounded to nearest, ties to
    even; an int beyond the largest double raises. *)
Definition float_of_int (z : Z) : py float :=
  let x := SF2Prim (binary_normalize prec emax z 0 false) in
  if is_infinity x then Raise OverflowError else Ret x.

(** [x > z] for a float and an int, by value; false for [nan]. *)
Definition float_gt_int (x : float) (z : Z) : bool :=
  match Prim2SF x with
  | S754_nan => false
  | S754_infinity s => negb s
  | S754_zero _ => (z <? 0)%Z
  | S754_finite s m e =>
      let v := cond_Zopp s (Zpos m) in
      if (0 <=? e)%Z then (z <? v * 2 ^ e)%Z else (z * 2 ^ (- e) <? v)%Z
  end.

(** [n < 0] and [n > y] for an argument [n] and an int [y]. *)
Definition lt_zero (n : number) : bool :=
  match n with
  | PyInt z => (z <? 0)%Z
  | PyFloat x => x <? 0
  end.

Definition gt_int (n : number) (y : Z) : bool :=
  match n with
  | PyInt z => (y <? z)%Z
  | PyFloat x => float_gt_int x y
  end.

(** [365 * n]. *)
Definition times_365 (n : number) : number :=
  match n with
  | PyInt z => PyInt (365 * z)
  | PyFloat x => PyFloat (365 * x)
  end.

(** [a / b] on floats: a divisor equal to zero, of either sign, raises. *)
Definition float_div (a b : float) : py float :=
  if b =? 0 then Raise ZeroDivisionError else Ret (a / b).

(** [x == floor(x)]. *)
Definition is_integer (x : float) : bool :=
  match Prim2SF x with
  | S754_nan => false
  | S754_infinity _ => true
  | S754_zero _ => true
  | S754_finite _ m e =>
      if (0 <=? e)%Z then true else (Zpos m mod 2 ^ (- e) =? 0)%Z
  end.

(** [DOUBLE_IS_ODD_INTEGER(x)], that is [fmod(fabs(x), 2.0) == 1.0]. *)
Definition is_odd_integer (x : float) : bool :=
  match Prim2SF x with
  | S754_finite _ m e =>
      if (0 <? e)%Z then false
      else if (e =? 0)%Z then Z.odd (Zpos m)
      else (Zpos m mod 2 ^ (- e) =? 0)%Z && Z.odd (Zpos m / 2 ^ (- e))
  | _ => false
  end.

(** [_Py_ADJUST_ERANGE1]: an infinite result counts as a range error, and
    a range error on a zero result (an underflow) is forgiven. *)
Definition adjust_erange (e : errno) (ix : float) : errno :=
  match e with
  | NoError => if is_infinity ix then ERANGE else NoError
  | ERANGE => if ix =? 0 then NoError else ERANGE
  | Errno code => Errno code
  end.

(** The end of [float_pow]: base and exponent are finite, the base is
    positive and the exponent not zero; a base other than 1.0 goes to the
    platform's [pow]. *)
Definition finish_pow (iv iw : float) (negate_result : bool) : py float :=
  if iv =? 1 then Ret (if negate_result then -1 else 1)
  else
    LibmPow iv iw (fun ix e =>
      let e := adjust_erange e ix in
      let ix := if negate_result then - ix else ix in
      match e with
      | NoError => Ret ix
      | ERANGE => Raise OverflowError
      | Errno code => Raise (ErrnoValueError code)
      end).

(** CPython's [float_pow] on two doubles, case by case in its order. *)
Definition pow_double (iv iw : float) : py float :=
  if iw =? 0 then Ret 1
  else if is_nan iv then Ret iv
  else if is_nan iw then Ret (if iv =? 1 then 1 else iw)
  else if is_infinity iw then
    let iv := abs iv in
    if iv =? 1 then Ret 1
    else if Bool.eqb (0 <? iw) (1 <? iv) then Ret (abs iw)
    else Ret 0
  else if is_infinity iv then
    let iw_is_odd := is_odd_integer iw in
    if 0 <? iw then Ret (if iw_is_odd then iv else abs iv)
    else Ret (if iw_is_odd then (if iv <? 0 then -0 else 0) else 0)
  else if iv =? 0 then
    let iw_is_odd := is_odd_integer iw in
    if iw <? 0 then Raise ZeroDivisionError
    else Ret (if iw_is_odd then iv else 0)
  else if iv <? 0 then
    if negb (is_integer iw) then ComplexValue
    else finish_pow (- iv) iw (is_odd_integer iw)
  else finish_pow iv iw false.

(** [d ** e] for a float [d]: an int exponent is converted first. *)
Definition float_pow (d : float) (e : number) : py float :=
  match e with
  | PyInt z => iw <~ float_of_int z ;; pow_double d iw
  | PyFloat y => pow_double d y
  end.

Record Mortgage : Type := mkMortgage {
  loan : float;
  years : Z;
  interest : float;
  r_frequency : Z
}.

Definition repayments (self : Mortgage) : py float :=
  let L := loan self in
  let Y := years self in
  let p := interest self / 100 in
  let k := r_frequency self in
  let daily_interest_factor := 1 + p / 365 in
  a <~ float_pow daily_interest_factor (PyInt (365 * Y)) ;;
  b <~ float_pow daily_interest_factor (PyInt k) ;;
  let numerator := L * a * (b - 1) in
  c <~ float_pow daily_interest_factor (PyInt (365 * Y)) ;;
  let denominator := c - 1 in
  P0 <~ float_div numerator denominator ;;
  Ret P0.

Definition range_message : string :=
  "n must be between 0 and the total loan term in years.".

Definition balance_after (self : Mortgage) (n : number) : py float :=
  if lt_zero n || gt_int n (years self) then
    Raise (ValueError range_message)
  else
    let L := loan self in
    let p := interest self / 100 in
    let k := r_frequency self in
    P0 <~ repayments self ;;
    let daily_interest_factor := 1 + p / 365 in
    x <~ float_pow daily_interest_factor (times_365 n) ;;
    y <~ float_pow daily_interest_factor (times_365 n) ;;
    z <~ float_pow daily_interest_factor (PyInt k) ;;
    q <~ float_div (y - 1) (z - 1) ;;
    let Bn := L * x - P0 * q in
    Ret Bn.

(** *** The formulas of the specification on doubles *)

Definition dailyFactor (t : Mortgage) : float :=
  1 + (interest t / 100) / 365.

(** principal * D * (F - 1) / (D - 1), for the values [D] and [F] of
    dailyFactor^(365*n) and dailyFactor^k. *)
Definition spec_repayment (L D F : float) : float :=
  L * D * (F - 1) / (D - 1).

(** principal * X - P0 * ((X - 1) / (F - 1)), grouped as the code groups
    it, for the values [X] and [F] of dailyFactor^(365*m) and
    dailyFactor^k. *)
Definition spec_balance (L X F P0 : float) : float :=
  L * X - P0 * ((X - 1) / (F - 1)).

(** Loan terms as the input loops of [main] let them through. *)
Record valid (t : Mortgage) : Prop := mkValid {
  valid_loan : (0 <? loan t) = true;
  valid_years : (0 < years t)%Z;
  valid_interest : (0 <? interest t) = true;
  valid_frequency : supported_frequency (r_frequency t)
}.

(** *** Sample data *)

(** 1000 over 2 years at 3.75 %, repaid weekly. *)
Definition sample : Mortgage := mkMortgage 1000 2 3.75 7.

(** The same loan at the rate that [float] reads from the text 1e-13. *)
Definition tiny_rate : Mortgage := mkMortgage 1000 2 0x1.c25c268497682p-44 7.

(** 300000 over 30 years at the same rate, repaid monthly. *)
Definition tiny_rate_monthly : Mortgage :=
  mkMortgage 300000 30 0x1.c25c268497682p-44 30.

(** The sample loan at a rate of -36500 %, where the daily factor is 0. *)
Definition negative_rate : Mortgage := mkMortgage 1000 2 (-36500) 7.

(** The sample loan over no years, and at no interest. *)
Definition zero_term : Mortgage := mkMortgage 1000 0 3.75 7.
Definition zero_rate : Mortgage := mkMortgage 1000 2 0 7.

(** A stand-in for the platform's [pow], to exercise the statements: a
    positive exponent that is a whole number or half of one, by repeated
    multiplication and a square root; anything else a domain error. *)
Fixpoint pow_nat (x : float) (n : nat) : float :=
  match n with
  | O => 1
  | S n' => x * pow_nat x n'
  end.

Definition sample_pow (x y : float) : float * errno :=
  match Prim2SF y with
  | S754_finite false m e =>
      (* twice the exponent, when that is a whole number *)
      let twice :=
        if (0 <=? e)%Z then Some (Zpos m * 2 ^ (e + 1))%Z
        else if (Zpos m * 2 mod 2 ^ (- e) =? 0)%Z
             then Some (Zpos m * 2 / 2 ^ (- e))%Z
             else None in
      match twice with
      | Some q =>
          if (q <? 2 ^ 20)%Z
          then (pow_nat x (Z.to_nat (q / 2))
                * (if Z.odd q then sqrt x else 1), NoError)
          else (nan, Errno 33)
      | None => (nan, Errno 33)
      end
  | _ => (nan, Errno 33)
  end.

End Double.

(** * Exact arithmetic *)

(** ** Powers of the daily factor *)

Lemma dailyFactor_gt1 (t : Mortgage) : 0 < interest t -> 1 < dailyFactor t.
Proof.
  intros Hi. unfold dailyFactor.
  assert (0 < interest t / 100 / 365) by (repeat apply Rdiv_lt_0_compat; lra).
  lra.
Qed.

Lemma powerRZ_lt_mono (d : R) (a b : Z) :
  1 < d -> (a < b)%Z -> powerRZ d a < powerRZ d b.
Proof.
  intros Hd Hab.
  rewrite !powerRZ_Rpower by lra.
  apply Rpower_lt; [exact Hd | now apply IZR_lt].
Qed.

Lemma powerRZ_gt1 (d : R) (z : Z) : 1 < d -> (0 < z)%Z -> 1 < powerRZ d z.
Proof.
  intros Hd Hz.
  replace 1 with (powerRZ d 0) at 1 by reflexivity.
  now apply powerRZ_lt_mono.
Qed.

(** ** The primitive operations away from their exceptions *)

Lemma float_pow_int (d : R) (z : Z) :
  d <> 0 -> float_pow d (PyInt z) = Return (powerRZ d z).
Proof.
  intros Hd. unfold float_pow. now destruct (Req_dec_T d 0).
Qed.

Lemma float_div_ok (a b : R) : b <> 0 -> float_div a b = Return (a / b).
Proof.
  intros Hb. unfold float_div. now destruct (Req_dec_T b 0).
Qed.


(** [repayments] in closed form, whatever the loan amount and interval. *)
Lemma repayments_closed_form (t : Mortgage) :
  (0 < years t)%Z -> 0 < interest t ->
  repayments t = Return (spec_repayment t).
Proof.
  intros Hy Hi.
  pose proof (dailyFactor_gt1 t Hi) as Hd. unfold dailyFactor in Hd.
  unfold repayments, spec_repayment, dailyFactor; cbn [mul_num].
  rewrite !float_pow_int by lra. cbn [bind].
  rewrite float_div_ok; [reflexivity|].
  assert (1 < powerRZ (1 + interest t / 100 / 365) (365 * years t))
    by (apply powerRZ_gt1; [exact Hd | lia]).
  lra.
Qed.

(** ** [balance_after] inside the range *)









(** ** No operation of the formulas raises [ValueError] *)

Lemma float_pow_no_value_error (d : R) (e : number) (msg : string) :
  float_pow d e <> Raise (ValueError msg).
Proof.
  unfold float_pow. destruct e as [z|x].
  - destruct (Req_dec_T d 0); [destruct (z <? 0)%Z|]; discriminate.
  - destruct (Req_dec_T x 0); [discriminate|].
    destruct (Req_dec_T d 0); [destruct (Rlt_dec x 0); discriminate|].
    destruct (Rlt_dec 0 d); [discriminate|].
    destruct (Req_dec_T _ x); discriminate.
Qed.

Lemma float_div_no_value_error (a b : R) (msg : string) :
  float_div a b <> Raise (ValueError msg).
Proof.
  unfold float_div. destruct (Req_dec_T b 0); discriminate.
Qed.

Lemma bind_no_value_error {A B : Type} (c : outcome A) (f : A -> outcome B) :
  (forall msg, c <> Raise (ValueError msg)) ->
  (forall a msg, f a <> Raise (ValueError msg)) ->
  forall msg, bind c f <> Raise (ValueError msg).
Proof.
  intros Hc Hf msg. destruct c as [a|e|]; cbn [bind].
  - apply Hf.
  - intros Heq. apply (Hc msg). congruence.
  - discriminate.
Qed.

Ltac no_value_error :=
  repeat first
    [ apply bind_no_value_error; [intros ?|intros ? ?]
    | apply float_pow_no_value_error
    | apply float_div_no_value_error
    | discriminate ].

Lemma repayments_no_value_error (t : Mortgage) (msg : string) :
  repayments t <> Raise (ValueError msg).
Proof.
  revert msg. unfold repayments. no_value_error.
Qed.

Lemma string_app_assoc (a b c : string) :
  ((a ++ b) ++ c = a ++ (b ++ c))%string.
Proof.
  induction a as [|ch a IH]; cbn [append]; [reflexivity | now rewrite IH].
Qed.


(** ** Claims settled in exact arithmetic *)

(** C4, as stated, fails: with nothing borrowed (principal 0, two years,
    3.65 %, weekly) [repayments] raises nothing and returns 0. *)
Lemma C4_counterexample :
  loan zero_principal <= 0
  /\ repayments zero_principal = Return 0
  /\ forall e : exn, repayments zero_principal <> Raise e.
Proof.
  assert (H : repayments zero_principal = Return 0).
  { rewrite repayments_closed_form by (simpl; lra || lia).
    f_equal. unfold spec_repayment. cbn [loan zero_principal].
    unfold Rdiv. ring. }
  split; [simpl; lra | split; [exact H|]].
  intros e. rewrite H. discriminate.
Qed.

(** C9. The summary printed by [__str__] labels an interval of 7, 14 and
    30 days "Weekly", "Fortnightly" and "Monthly", and any other interval
    [n] "<n> days" (10 gives "10 days"); the label opens the repayment
    line of the summary. *)
Theorem C9_frequency_label (t : Mortgage) :
  (r_frequency t = 7%Z -> frequency_str t = "Weekly"%string)
  /\ (r_frequency t = 14%Z -> frequency_str t = "Fortnightly"%string)
  /\ (r_frequency t = 30%Z -> frequency_str t = "Monthly"%string)
  /\ (r_frequency t <> 7%Z -> r_frequency t <> 14%Z ->
      r_frequency t <> 30%Z ->
      frequency_str t = (str_int (r_frequency t) ++ " days")%string)
  /\ frequency_str ten_days = "10 days"%string
  /\ (forall P0 : R, repayments t = Return P0 ->
      __str__ t
      = Return (summary_head t ++ frequency_str t ++ " Repayments: "
                ++ format_2f P0 ++ " AUD")%string).
Proof.
  unfold frequency_str, frequency_map.
  repeat split.
  - now intros ->.
  - now intros ->.
  - now intros ->.
  - intros H7 H14 H30. cbn [dict_get].
    apply Z.eqb_neq in H7, H14, H30.
    rewrite (Z.eqb_sym 7), (Z.eqb_sym 14), (Z.eqb_sym 30).
    now rewrite H7, H14, H30.
  - intros P0 HP0. unfold __str__, summary_head. rewrite HP0. cbn [bind].
    f_equal. now rewrite !string_app_assoc.
Qed.

Lemma C9_frequency_label_witness :
  (r_frequency sample = 7%Z /\ frequency_str sample = "Weekly"%string)
  /\ (r_frequency ten_days <> 7%Z /\ r_frequency ten_days <> 14%Z
      /\ r_frequency ten_days <> 30%Z
      /\ frequency_str ten_days
         = (str_int (r_frequency ten_days) ++ " days")%string)
  /\ (repayments sample = Return (spec_repayment sample)
      /\ __str__ sample
         = Return (summary_head sample ++ frequency_str sample
                   ++ " Repayments: "
                   ++ format_2f (spec_repayment sample) ++ " AUD")%string).
Proof.
  assert (H7 : r_frequency sample = 7%Z) by reflexivity.
  assert (N7 : r_frequency ten_days <> 7%Z) by (simpl; lia).
  assert (N14 : r_frequency ten_days <> 14%Z) by (simpl; lia).
  assert (N30 : r_frequency ten_days <> 30%Z) by (simpl; lia).
  assert (HP : repayments sample = Return (spec_repayment sample))
    by (apply repayments_closed_form; simpl; lia || lra).
  split; [|split].
  - split; [exact H7|].
    exact (proj1 (C9_frequency_label sample) H7).
  - repeat (split; [assumption|]).
    exact (proj1 (proj2 (proj2 (proj2 (C9_frequency_label ten_days))))
                 N7 N14 N30).
  - split; [exact HP|].
    exact (proj2 (proj2 (proj2 (proj2 (proj2 (C9_frequency_label sample)))))
                 _ HP).
Defined.

(** ** Further properties of [repayments] and [balance_after] *)

(** A float exponent that is a whole number, not negative, gives what the
    int exponent gives, for every base. *)
Lemma float_pow_whole (d : R) (z : Z) :
  (0 <= z)%Z -> float_pow d (PyFloat (IZR z)) = float_pow d (PyInt z).
Proof.
  intros Hz. unfold float_pow.
  assert (Hnneg : (z <? 0)%Z = false) by (apply Z.ltb_ge; lia).
  rewrite Hnneg.
  destruct (Req_dec_T (IZR z) 0) as [E|N].
  - apply eq_IZR in E. subst z. cbn [powerRZ].
    now destruct (Req_dec_T d 0).
  - assert (Hpos : (0 < z)%Z).
    { destruct (Z.eq_dec z 0) as [->|]; [now elim N | lia]. }
    destruct (Req_dec_T d 0) as [->|Hd].
    + destruct (Rlt_dec (IZR z) 0) as [Hlt|_].
      * apply lt_IZR in Hlt. lia.
      * f_equal. destruct z as [|p|p]; try lia.
        cbn [powerRZ]. symmetry. apply pow_i. apply Pos2Nat.is_pos.
    + destruct (Rlt_dec 0 d) as [Hd0|Hd0].
      * f_equal. symmetry. now apply powerRZ_Rpower.
      * assert (Hint : Int_part (IZR z) = z).
        { symmetry. apply Int_part_spec. lra. }
        rewrite Hint.
        destruct (Req_dec_T (IZR z) (IZR z)); [reflexivity | contradiction].
Qed.

(** X6. A whole number of years passed as a float gives exactly what the
    same number passed as an int gives: the same value, or the same
    exception, on any loan terms. *)
Theorem X6_whole_float_as_int (t : Mortgage) (m : Z) :
  balance_after t (PyFloat (IZR m)) = balance_after t (PyInt m).
Proof.
  unfold balance_after.
  assert (Hg : lt_num (PyFloat (IZR m)) (PyInt 0)
               || lt_num (PyInt (years t)) (PyFloat (IZR m))
               = lt_num (PyInt m) (PyInt 0)
                 || lt_num (PyInt (years t)) (PyInt m)).
  { cbn [lt_num to_float]. f_equal.
    - destruct (Rlt_dec (IZR m) 0) as [H|H]; symmetry.
      + apply Z.ltb_lt. now apply lt_IZR.
      + apply Z.ltb_ge. apply Z.le_ngt. intros Hc. apply H. now apply IZR_lt.
    - destruct (Rlt_dec (IZR (years t)) (IZR m)) as [H|H]; symmetry.
      + apply Z.ltb_lt. now apply lt_IZR.
      + apply Z.ltb_ge. apply Z.le_ngt. intros Hc. apply H. now apply IZR_lt. }
  rewrite Hg.
  destruct (lt_num (PyInt m) (PyInt 0) || lt_num (PyInt (years t)) (PyInt m))
    eqn:Hguard; [reflexivity|].
  apply orb_false_iff in Hguard as [Hlow _].
  cbn [lt_num] in Hlow. apply Z.ltb_ge in Hlow.
  cbn [mul_num to_float]. rewrite <- mult_IZR.
  rewrite float_pow_whole by lia. reflexivity.
Qed.

(** ** The data of [draw_balance_graph] *)

Lemma arange_In (start stop n : Z) :
  In n (arange start stop) <-> (start <= n < stop)%Z.
Proof.
  unfold arange. rewrite in_map_iff. split.
  - intros [i [<- Hi]]. apply in_seq in Hi. lia.
  - intros Hn. exists (Z.to_nat (n - start)). split; [lia|].
    apply in_seq. lia.
Qed.

Lemma comprehension_no_value_error {A B : Type} (f : A -> outcome B)
  (l : list A) :
  (forall n msg, In n l -> f n <> Raise (ValueError msg)) ->
  forall msg, comprehension f l <> Raise (ValueError msg).
Proof.
  induction l as [|n rest IH]; intros H; cbn [comprehension].
  - discriminate.
  - apply bind_no_value_error.
    + intros msg. apply H. now left.
    + intros v. apply bind_no_value_error.
      * apply IH. intros m msg Hm. apply H. now right.
      * discriminate.
Qed.





(** X11. For a term of zero or fewer years [draw_balance_graph] has no
    year to plot: it hands empty data to the plot and raises nothing,
    although [repayments] itself fails on a term of zero years. *)
Theorem X11_graph_of_empty_term (t : Mortgage) :
  (years t <= 0)%Z -> draw_balance_graph t = Return ([], []).
Proof.
  intros Hy. unfold draw_balance_graph, arange.
  replace (Z.to_nat (years t + 1 - 1)) with 0%nat by lia.
  reflexivity.
Qed.

Lemma X11_graph_of_empty_term_witness :
  (years (mkMortgage 1000 0 5 7) <= 0)%Z
  /\ draw_balance_graph (mkMortgage 1000 0 5 7) = Return ([], []).
Proof.
  assert (Hy : (years (mkMortgage 1000 0 5 7) <= 0)%Z) by (simpl; lia).
  split; [exact Hy|].
  exact (X11_graph_of_empty_term (mkMortgage 1000 0 5 7) Hy).
Defined.

Lemma int64_guard_passes (t : Mortgage) (n : Z) :
  In n (arange 1 (years t + 1)) ->
  (n <? 0)%Z || (years t <? n)%Z = false.
Proof.
  intros Hn. apply arange_In in Hn.
  apply orb_false_iff; split; apply Z.ltb_ge; lia.
Qed.

(** X13. On no loan terms does [draw_balance_graph] raise [ValueError]:
    the years it asks [balance_after] for always pass the range check. *)
Theorem X13_graph_never_out_of_range (t : Mortgage) (msg : string) :
  draw_balance_graph t <> Raise (ValueError msg).
Proof.
  revert msg. unfold draw_balance_graph.
  apply bind_no_value_error; [|discriminate].
  apply comprehension_no_value_error.
  intros n msg Hn. unfold balance_after_int64.
  rewrite int64_guard_passes by exact Hn.
  revert msg. apply bind_no_value_error; [apply repayments_no_value_error|].
  intros P0. no_value_error.
Qed.




(** ** The input loops of [main] *)

Lemma emit_done {A : Type} (before : list event) (c : console A)
  (v : A) (rest : list string) (out : list event) :
  emit before c = Done v rest out ->
  exists out', c = Done v rest out' /\ out = (before ++ out')%list.
Proof.
  destruct c as [v' rest' out'|out']; cbn [emit]; [|discriminate].
  intros H. injection H as -> -> <-. eauto.
Qed.

Lemma and_then_done {A B : Type} (c : console A)
  (f : A -> list string -> console B)
  (v : B) (rest : list string) (out : list event) :
  and_then c f = Done v rest out ->
  exists a s1 o1 o2,
    c = Done a s1 o1 /\ f a s1 = Done v rest o2 /\ out = (o1 ++ o2)%list.
Proof.
  destruct c as [a s1 o1|o1]; cbn [and_then]; [|discriminate].
  intros H. apply emit_done in H as [o2 [H ->]]. eauto 7.
Qed.

Section InputLoopFacts.

Variable float : string -> option float_value.
Variable int : string -> option Z.

Lemma get_positive_int_done (prompt input_name : string)
  (stdin : list string) (v : Z) (rest : list string) (out : list event) :
  Main.get_positive_int int prompt input_name stdin = Done v rest out ->
  (0 < v)%Z
  /\ exists (skipped : list string) (line : string),
       stdin = (skipped ++ line :: rest)%list
       /\ int line = Some v
       /\ (forall l w, In l skipped -> int l = Some w -> (w <= 0)%Z)
       /\ List.length out = (2 * List.length skipped + 1)%nat.
Proof.
  revert out. induction stdin as [|line0 stdin IH]; intros out;
    cbn [Main.get_positive_int]; [discriminate|].
  destruct (int line0) as [w|] eqn:Hw.
  - destruct (Z.leb_spec w 0) as [Hle|Hgt].
    + intros H. apply emit_done in H as [out' [H ->]].
      destruct (IH _ H) as [Hv [skipped [line [-> [Hl [Hs Hlen]]]]]].
      split; [exact Hv|].
      exists (line0 :: skipped), line. repeat split; try assumption.
      * intros l w' [<-|Hin] Hlw; [congruence | eauto].
      * cbn [List.length app]. rewrite Hlen. lia.
    + intros H. injection H as <- <- <-.
      split; [exact Hgt|].
      exists [], line0. repeat split; try assumption.
      intros l w' [].
  - intros H. apply emit_done in H as [out' [H ->]].
    destruct (IH _ H) as [Hv [skipped [line [-> [Hl [Hs Hlen]]]]]].
    split; [exact Hv|].
    exists (line0 :: skipped), line. repeat split; try assumption.
    * intros l w' [<-|Hin] Hlw; [congruence | eauto].
    * cbn [List.length app]. rewrite Hlen. lia.
Qed.

Lemma get_positive_int_answers (prompt input_name : string)
  (stdin : list string) :
  (exists v rest out,
     Main.get_positive_int int prompt input_name stdin = Done v rest out)
  <-> (exists l w, In l stdin /\ int l = Some w /\ (0 < w)%Z).
Proof.
  split.
  - intros [v [rest [out H]]].
    apply get_positive_int_done in H
      as [Hv [skipped [line [-> [Hl _]]]]].
    exists line, v. repeat split; try assumption.
    apply in_or_app. right. now left.
  - induction stdin as [|line0 stdin IH]; intros [l [w [Hin [Hl Hw]]]];
      [destruct Hin|].
    cbn [Main.get_positive_int].
    assert (Hrec : In l stdin ->
                   forall before,
                   exists v rest out,
                     emit before
                       (Main.get_positive_int int prompt input_name stdin)
                     = Done v rest out).
    { intros Hin' before.
      destruct IH as [v [rest [out H]]]; [eauto|].
      rewrite H. cbn [emit]. eauto. }
    destruct (int line0) as [w0|] eqn:Hw0.
    + destruct (Z.leb_spec w0 0) as [Hle|Hgt]; [|eauto].
      destruct Hin as [->|Hin]; [|now apply Hrec].
      rewrite Hl in Hw0. injection Hw0 as ->. lia.
    + destruct Hin as [->|Hin]; [congruence | now apply Hrec].
Qed.

Lemma get_repayment_frequency_done (stdin : list string) (k : Z)
  (rest : list string) (out : list event) :
  Main.get_repayment_frequency int stdin = Done k rest out ->
  supported_frequency k
  /\ exists (skipped : list string) (line : string),
       stdin = (skipped ++ line :: rest)%list
       /\ int line = Some k
       /\ (forall l w, In l skipped -> int l = Some w ->
           ~ supported_frequency w).
Proof.
  assert (Hmem : forall w, existsb (Z.eqb w) Main.frequency_map = true
                           <-> supported_frequency w).
  { intros w. unfold Main.frequency_map, supported_frequency.
    cbn [existsb]. rewrite !orb_true_iff, !Z.eqb_eq.
    split; [intros [H|[H|[H|H]]]; auto; discriminate
           | intros [H|[H|H]]; auto]. }
  revert out. induction stdin as [|line0 stdin IH]; intros out;
    cbn [Main.get_repayment_frequency]; [discriminate|].
  destruct (int line0) as [w|] eqn:Hw.
  - destruct (existsb (Z.eqb w) Main.frequency_map) eqn:Hin.
    + intros H. injection H as <- <- <-.
      split; [now apply Hmem|].
      exists [], line0. repeat split; try assumption.
      intros l w' [].
    + intros H. apply emit_done in H as [out' [H ->]].
      destruct (IH _ H) as [Hk [skipped [line [-> [Hl Hs]]]]].
      split; [exact Hk|].
      exists (line0 :: skipped), line. repeat split; try assumption.
      intros l w' [<-|Hin'] Hlw; [|eauto].
      rewrite Hw in Hlw. injection Hlw as <-.
      intros Hsup. apply Hmem in Hsup. congruence.
  - intros H. apply emit_done in H as [out' [H ->]].
    destruct (IH _ H) as [Hk [skipped [line [-> [Hl Hs]]]]].
    split; [exact Hk|].
    exists (line0 :: skipped), line. repeat split; try assumption.
    intros l w' [<-|Hin'] Hlw; [congruence | eauto].
Qed.

Lemma get_positive_float_done (prompt input_name : string)
  (stdin : list string) (v : float_value) (rest : list string)
  (out : list event) :
  Main.get_positive_float float prompt input_name stdin = Done v rest out ->
  (exists x : R, v = Real x /\ 0 < x) \/ v = PosInf \/ v = NaN.
Proof.
  revert out. induction stdin as [|line0 stdin IH]; intros out;
    cbn [Main.get_positive_float]; [discriminate|].
  destruct (float line0) as [w|].
  - destruct (float_le_zero w) eqn:Hle.
    + intros H. apply emit_done in H as [out' [H _]]. eauto.
    + intros H. injection H as <- _ _.
      destruct w as [x| | |]; cbn [float_le_zero] in Hle;
        [|auto|discriminate|auto].
      destruct (Rle_dec x 0); [discriminate|].
      left. exists x. split; [reflexivity | lra].
  - intros H. apply emit_done in H as [out' [H _]]. eauto.
Qed.

End InputLoopFacts.

(** X16. When [get_positive_int] returns, the value is positive and comes
    from the first line of the input that [int] reads as a positive
    number; the lines before it were each read and rejected, a prompt and
    a message written for each, and the lines after it are left unread. *)
Theorem X16_positive_int_first_accepted (int : string -> option Z)
  (prompt input_name : string) (stdin : list string)
  (v : Z) (rest : list string) (out : list event) :
  Main.get_positive_int int prompt input_name stdin = Done v rest out ->
  (0 < v)%Z
  /\ exists (skipped : list string) (line : string),
       stdin = (skipped ++ line :: rest)%list
       /\ int line = Some v
       /\ (forall l w, In l skipped -> int l = Some w -> (w <= 0)%Z)
       /\ List.length out = (2 * List.length skipped + 1)%nat.
Proof. apply get_positive_int_done. Qed.

Lemma X16_positive_int_first_accepted_witness :
  Main.get_positive_int int_sample "Enter Loan Term in Years: " "year"
    ["two"; "0"; "2"; "7"]%string
  = Done 2%Z ["7"%string]
      [Prompt "Enter Loan Term in Years: ";
       Print "Not a valid int value. Try again...";
       Prompt "Enter Loan Term in Years: ";
       Print (Main.should_be_positive "year");
       Prompt "Enter Loan Term in Years: "]
  /\ (0 < 2)%Z
  /\ exists (skipped : list string) (line : string),
       ["two"; "0"; "2"; "7"]%string = (skipped ++ line :: ["7"%string])%list
       /\ int_sample line = Some 2%Z
       /\ (forall l w, In l skipped -> int_sample l = Some w -> (w <= 0)%Z)
       /\ List.length
            [Prompt "Enter Loan Term in Years: ";
             Print "Not a valid int value. Try again...";
             Prompt "Enter Loan Term in Years: ";
             Print (Main.should_be_positive "year");
             Prompt "Enter Loan Term in Years: "]
          = (2 * List.length skipped + 1)%nat.
Proof.
  assert (H : Main.get_positive_int int_sample
                "Enter Loan Term in Years: " "year"
                ["two"; "0"; "2"; "7"]%string
              = Done 2%Z ["7"%string]
                  [Prompt "Enter Loan Term in Years: ";
                   Print "Not a valid int value. Try again...";
                   Prompt "Enter Loan Term in Years: ";
                   Print (Main.should_be_positive "year");
                   Prompt "Enter Loan Term in Years: "])
    by reflexivity.
  split; [exact H|].
  exact (X16_positive_int_first_accepted int_sample _ _ _ _ _ _ H).
Defined.

(** X17. [get_positive_int] returns a value exactly when some line of the
    input reads as a positive number; on any other input it asks until
    the input ends and fails with [EOFError]. *)
Theorem X17_positive_int_answers (int : string -> option Z)
  (prompt input_name : string) (stdin : list string) :
  ((exists v rest out,
      Main.get_positive_int int prompt input_name stdin = Done v rest out)
   <-> (exists l w, In l stdin /\ int l = Some w /\ (0 < w)%Z))
  /\ ((exists out,
         Main.get_positive_int int prompt input_name stdin = EOFError out)
      <-> ~ (exists l w, In l stdin /\ int l = Some w /\ (0 < w)%Z)).
Proof.
  pose proof (get_positive_int_answers int prompt input_name stdin) as Hiff.
  split; [exact Hiff|].
  rewrite <- Hiff.
  destruct (Main.get_positive_int int prompt input_name stdin)
    as [v rest out|out].
  - split.
    + intros [out' H]. discriminate.
    + intros H. exfalso. apply H. eauto.
  - split.
    + intros _ [v [rest [out' H]]]. discriminate.
    + intros _. eauto.
Qed.

(** X18. When [get_repayment_frequency] returns, the value is 7, 14 or 30
    and comes from the first line of the input that reads as one of
    them. *)
Theorem X18_frequency_is_supported (int : string -> option Z)
  (stdin : list string) (k : Z) (rest : list string) (out : list event) :
  Main.get_repayment_frequency int stdin = Done k rest out ->
  supported_frequency k
  /\ exists (skipped : list string) (line : string),
       stdin = (skipped ++ line :: rest)%list
       /\ int line = Some k
       /\ (forall l w, In l skipped -> int l = Some w ->
           ~ supported_frequency w).
Proof. apply get_repayment_frequency_done. Qed.

Lemma X18_frequency_is_supported_witness :
  Main.get_repayment_frequency int_sample ["10"; "x"; "7"]%string
  = Done 7%Z []
      [Prompt Main.frequency_prompt;
       Print "Value of frequency should be 7, 14 or 30. Try again...";
       Prompt Main.frequency_prompt;
       Print "Not a valid int value. Try again...";
       Prompt Main.frequency_prompt]
  /\ supported_frequency 7
  /\ exists (skipped : list string) (line : string),
       ["10"; "x"; "7"]%string = (skipped ++ line :: [])%list
       /\ int_sample line = Some 7%Z
       /\ (forall l w, In l skipped -> int_sample l = Some w ->
           ~ supported_frequency w).
Proof.
  assert (H : Main.get_repayment_frequency int_sample ["10"; "x"; "7"]%string
              = Done 7%Z []
                  [Prompt Main.frequency_prompt;
                   Print "Value of frequency should be 7, 14 or 30. Try again...";
                   Prompt Main.frequency_prompt;
                   Print "Not a valid int value. Try again...";
                   Prompt Main.frequency_prompt])
    by reflexivity.
  split; [exact H|].
  exact (X18_frequency_is_supported int_sample _ _ _ _ H).
Defined.

(** X19. A value returned by [get_positive_float] is never zero or
    negative, but need not be a number: it is a positive real, or [inf],
    or [nan], and a line that [float] reads as [nan] is accepted on the
    spot, since [nan <= 0] is false. *)
Theorem X19_positive_float_or_nan (float : string -> option float_value)
  (prompt input_name : string) (stdin : list string) :
  (forall v rest out,
     Main.get_positive_float float prompt input_name stdin = Done v rest out ->
     (exists x : R, v = Real x /\ 0 < x) \/ v = PosInf \/ v = NaN)
  /\ (forall line rest,
        float line = Some NaN ->
        Main.get_positive_float float prompt input_name (line :: rest)
        = Done NaN rest [Prompt prompt]).
Proof.
  split.
  - intros v rest out. apply get_positive_float_done.
  - intros line rest Hnan. cbn [Main.get_positive_float].
    rewrite Hnan. reflexivity.
Qed.

Lemma X19_positive_float_or_nan_witness :
  float_sample "nan" = Some NaN
  /\ Main.get_positive_float float_sample "Enter Loan Amount in AUD: " "loan"
       ["nan"; "1000"]%string
     = Done NaN ["1000"%string] [Prompt "Enter Loan Amount in AUD: "]
  /\ ((exists x : R, NaN = Real x /\ 0 < x) \/ NaN = PosInf \/ NaN = NaN).
Proof.
  assert (Hnan : float_sample "nan" = Some NaN) by reflexivity.
  pose proof (proj2 (X19_positive_float_or_nan float_sample
                       "Enter Loan Amount in AUD: " "loan" [])
                    "nan"%string ["1000"%string] Hnan) as H.
  split; [exact Hnan | split; [exact H|]].
  exact (proj1 (X19_positive_float_or_nan float_sample
                  "Enter Loan Amount in AUD: " "loan"
                  ["nan"; "1000"]%string) _ _ _ H).
Defined.

(** * Double precision *)

(** ** Runs *)

Lemma run_bind {A B : Type} (libm : float -> float -> float * Double.errno)
  (c : Double.py A) (f : A -> Double.py B) :
  Double.run libm (Double.bind c f)
  = Double.bind (Double.run libm c) (fun a => Double.run libm (f a)).
Proof.
  induction c as [a|e| |x y k IH]; cbn [Double.bind Double.run];
    try reflexivity.
  destruct (libm x y) as [r e]. apply IH.
Qed.

Lemma pow_double_base_one (iw : float) :
  Double.pow_double 1 iw = Double.Ret 1%float.
Proof.
  unfold Double.pow_double.
  destruct (iw =? 0)%float; [reflexivity|].
  change (is_nan 1) with false. cbv iota.
  destruct (is_nan iw); [reflexivity|].
  destruct (is_infinity iw); reflexivity.
Qed.

(** ** Facts of IEEE arithmetic *)



Lemma SFcompare_refl (x : spec_float) :
  x <> S754_nan -> SFcompare x x = Some Eq.
Proof.
  destruct x as [s|s| |s m e]; intros Hx; cbn [SFcompare].
  - reflexivity.
  - now destruct s.
  - now elim Hx.
  - rewrite Z.compare_refl.
    assert (H : Pos.compare_cont Eq m m = Eq) by apply Pos.compare_refl.
    rewrite H. now destruct s.
Qed.

Lemma is_nan_spec (x : float) :
  is_nan x = true <-> Prim2SF x = S754_nan.
Proof.
  unfold is_nan. rewrite eqb_spec. unfold SFeqb.
  destruct (Prim2SF x) as [s|s| |s m e] eqn:E.
  - cbn. split; discriminate.
  - rewrite SFcompare_refl by discriminate. cbn. split; discriminate.
  - cbn. tauto.
  - rewrite SFcompare_refl by discriminate. cbn. split; discriminate.
Qed.


Lemma eqb_zero_spec (x : float) :
  (x =? 0)%float = true <-> exists s, Prim2SF x = S754_zero s.
Proof.
  rewrite eqb_spec. unfold SFeqb.
  change (Prim2SF 0%float) with (S754_zero false).
  destruct (Prim2SF x) as [s|s| |s m e]; cbn [SFcompare].
  - split; eauto.
  - split; [destruct s; discriminate | intros [? ?]; discriminate].
  - split; [discriminate | intros [? ?]; discriminate].
  - split; [destruct s; discriminate | intros [? ?]; discriminate].
Qed.









Lemma eqb_zero_cases (x : float) :
  (x =? 0)%float = true -> x = 0%float \/ x = (-0)%float.
Proof.
  intros H. apply eqb_zero_spec in H as [s Hs].
  rewrite <- (SF2Prim_Prim2SF x), Hs.
  destruct s; [right | left]; reflexivity.
Qed.

(** ** The sign of the daily factor *)

Lemma binary_round_aux_not_negative (mx ex : Z) (lx : location) :
  not_negative (binary_round_aux prec emax false mx ex lx).
Proof.
  unfold binary_round_aux.
  destruct (shr_fexp prec emax mx ex lx) as [mrs' e'].
  destruct (shr_fexp prec emax _ e' loc_Exact) as [mrs'' e''].
  destruct (shr_m mrs'') as [|p|p]; cbn [not_negative]; auto.
  destruct (Z.leb e'' (Z.sub emax prec)); cbn [not_negative]; auto.
Qed.

Lemma SFdiv_not_negative (x : spec_float) (m : positive) (e : Z) :
  not_negative x ->
  not_negative (SF64div x (S754_finite false m e)).
Proof.
  destruct x as [s|s| |s mx ex]; cbn; intros H; subst; auto.
  destruct (SFdiv_core_binary prec emax (Zpos mx) ex (Zpos m) e)
    as [[mz ez] lz].
  apply binary_round_aux_not_negative.
Qed.

Lemma SFadd_one_not_negative (x : spec_float) :
  not_negative x ->
  not_negative (SF64add (Prim2SF 1%float) x).
Proof.
  change (Prim2SF 1%float) with (S754_finite false 4503599627370496 (-52)).
  destruct x as [s|s| |s mx ex]; cbn [SF64add SFadd not_negative];
    intros H; subst; auto.
  unfold binary_normalize. cbn [cond_Zopp Z.add].
  unfold binary_round.
  destruct (shl_align _ _ _) as [mz ez].
  apply binary_round_aux_not_negative.
Qed.

Lemma positive_not_negative (x : float) :
  (0 <? x)%float = true -> not_negative (Prim2SF x).
Proof.
  rewrite ltb_spec. unfold SFltb.
  change (Prim2SF 0%float) with (S754_zero false).
  destruct (Prim2SF x) as [s|s| |s m e]; cbn; try discriminate;
    destruct s; auto; discriminate.
Qed.

Lemma not_negative_ltb (x : float) :
  not_negative (Prim2SF x) -> (x <? 0)%float = false.
Proof.
  rewrite ltb_spec. unfold SFltb.
  change (Prim2SF 0%float) with (S754_zero false).
  destruct (Prim2SF x) as [s|s| |s m e]; cbn; intros H; subst; reflexivity.
Qed.

(** A positive rate gives a daily factor that is not negative. *)
Lemma dailyFactor_not_negative (t : Double.Mortgage) :
  (0 <? Double.interest t)%float = true ->
  (Double.dailyFactor t <? 0)%float = false.
Proof.
  intros Hi. apply not_negative_ltb. unfold Double.dailyFactor.
  rewrite add_spec. apply SFadd_one_not_negative.
  rewrite div_spec.
  change (Prim2SF 365%float) with (S754_finite false 6421147906211840 (-44)).
  apply SFdiv_not_negative.
  rewrite div_spec.
  change (Prim2SF 100%float) with (S754_finite false 7036874417766400 (-46)).
  apply SFdiv_not_negative.
  now apply positive_not_negative.
Qed.

(** ** Double precision: what a run that returns has computed *)

Lemma bind_ret_inv {A B : Type} (c : Double.py A) (f : A -> Double.py B)
  (b : B) :
  Double.bind c f = Double.Ret b ->
  exists a, c = Double.Ret a /\ f a = Double.Ret b.
Proof.
  destruct c; cbn [Double.bind]; try discriminate. eauto.
Qed.

Lemma run_float_div (libm : float -> float -> float * Double.errno)
  (a b : float) :
  Double.run libm (Double.float_div a b) = Double.float_div a b.
Proof.
  unfold Double.float_div. now destruct (b =? 0)%float.
Qed.

Lemma float_div_ret_inv (a b q : float) :
  Double.float_div a b = Double.Ret q <->
  (b =? 0)%float = false /\ q = (a / b)%float.
Proof.
  unfold Double.float_div. destruct (b =? 0)%float; split.
  - discriminate.
  - intros [H _]. discriminate.
  - intros H. injection H as <-. auto.
  - intros [_ ->]. reflexivity.
Qed.

Lemma repayments_returns (libm : float -> float -> float * Double.errno)
  (t : Double.Mortgage) (P0 : float) :
  Double.run libm (Double.repayments t) = Double.Ret P0
  <-> exists D F : float,
        Double.run libm
          (Double.float_pow (Double.dailyFactor t)
             (Double.PyInt (365 * Double.years t))) = Double.Ret D
        /\ Double.run libm
             (Double.float_pow (Double.dailyFactor t)
                (Double.PyInt (Double.r_frequency t))) = Double.Ret F
        /\ (D - 1 =? 0)%float = false
        /\ P0 = Double.spec_repayment (Double.loan t) D F.
Proof.
  unfold Double.repayments, Double.spec_repayment. cbv zeta.
  fold (Double.dailyFactor t).
  rewrite run_bind. split.
  - intros H. apply bind_ret_inv in H as [D [HD H]].
    rewrite run_bind in H. apply bind_ret_inv in H as [F [HF H]].
    rewrite run_bind, HD in H. cbn [Double.bind] in H.
    rewrite run_bind, run_float_div in H.
    apply bind_ret_inv in H as [q [Hq H]]. cbn [Double.run] in H.
    injection H as <-. apply float_div_ret_inv in Hq as [Hz ->].
    exists D, F. auto.
  - intros [D [F [HD [HF [Hz ->]]]]].
    rewrite HD. cbn [Double.bind].
    rewrite run_bind, HF. cbn [Double.bind].
    rewrite run_bind, HD. cbn [Double.bind].
    rewrite run_bind, run_float_div.
    unfold Double.float_div. rewrite Hz. reflexivity.
Qed.

Lemma balance_after_returns (libm : float -> float -> float * Double.errno)
  (t : Double.Mortgage) (n : Double.number) (b : float) :
  Double.run libm (Double.balance_after t n) = Double.Ret b
  <-> Double.lt_zero n = false /\ Double.gt_int n (Double.years t) = false
      /\ exists P0 X F : float,
           Double.run libm (Double.repayments t) = Double.Ret P0
           /\ Double.run libm
                (Double.float_pow (Double.dailyFactor t)
                   (Double.times_365 n)) = Double.Ret X
           /\ Double.run libm
                (Double.float_pow (Double.dailyFactor t)
                   (Double.PyInt (Double.r_frequency t))) = Double.Ret F
           /\ (F - 1 =? 0)%float = false
           /\ b = Double.spec_balance (Double.loan t) X F P0.
Proof.
  unfold Double.balance_after, Double.spec_balance. cbv zeta.
  fold (Double.dailyFactor t).
  destruct (Double.lt_zero n); cbn [orb].
  { cbn [Double.run]. split; [discriminate | intros [H _]; discriminate]. }
  destruct (Double.gt_int n (Double.years t)).
  { cbn [Double.run]. split; [discriminate | intros [_ [H _]]; discriminate]. }
  rewrite run_bind. split.
  - intros H. apply bind_ret_inv in H as [P0 [HP H]].
    rewrite run_bind in H. apply bind_ret_inv in H as [X [HX H]].
    rewrite run_bind, HX in H. cbn [Double.bind] in H.
    rewrite run_bind in H. apply bind_ret_inv in H as [F [HF H]].
    rewrite run_bind, run_float_div in H.
    apply bind_ret_inv in H as [q [Hq H]]. cbn [Double.run] in H.
    injection H as <-. apply float_div_ret_inv in Hq as [Hz ->].
    repeat split. exists P0, X, F. auto.
  - intros [_ [_ [P0 [X [F [HP [HX [HF [Hz ->]]]]]]]]].
    rewrite HP. cbn [Double.bind].
    rewrite run_bind, HX. cbn [Double.bind].
    rewrite run_bind, HX. cbn [Double.bind].
    rewrite run_bind, HF. cbn [Double.bind].
    rewrite run_bind, run_float_div.
    unfold Double.float_div. rewrite Hz. reflexivity.
Qed.

(** ** Double precision: what [**] can and cannot do *)

Lemma run_not_libm {A : Type} (libm : float -> float -> float * Double.errno)
  (c : Double.py A) (x y : float) (k : float -> Double.errno -> Double.py A) :
  Double.run libm c <> Double.LibmPow x y k.
Proof.
  induction c as [a|e| |x' y' k' IH]; cbn [Double.run]; try discriminate.
  destruct (libm x' y') as [r e]. apply IH.
Qed.

Ltac split_ifs :=
  repeat match goal with
         | |- context [if ?b then _ else _] => destruct b
         end.

(** [**] raises no [ValueError] of the code's own. *)
Lemma pow_double_no_value_error
  (libm : float -> float -> float * Double.errno) (iv iw : float)
  (msg : string) :
  Double.run libm (Double.pow_double iv iw)
  <> Double.Raise (Double.ValueError msg).
Proof.
  unfold Double.pow_double, Double.finish_pow.
  split_ifs; cbn [Double.run]; try discriminate;
    destruct (libm _ iw) as [r e];
    destruct (Double.adjust_erange e r); cbn [Double.run]; discriminate.
Qed.

(** Only a negative base can leave the floats. *)
Lemma pow_double_not_complex
  (libm : float -> float -> float * Double.errno) (iv iw : float) :
  (iv <? 0)%float = false ->
  Double.run libm (Double.pow_double iv iw) <> Double.ComplexValue.
Proof.
  intros Hneg. unfold Double.pow_double, Double.finish_pow. rewrite Hneg.
  split_ifs; cbn [Double.run]; try discriminate;
    destruct (libm _ iw) as [r e];
    destruct (Double.adjust_erange e r); cbn [Double.run]; discriminate.
Qed.

Lemma float_pow_no_value_error_double
  (libm : float -> float -> float * Double.errno) (d : float)
  (e : Double.number) (msg : string) :
  Double.run libm (Double.float_pow d e)
  <> Double.Raise (Double.ValueError msg).
Proof.
  destruct e as [z|y]; cbn [Double.float_pow].
  - unfold Double.float_of_int.
    destruct (is_infinity _); cbn [Double.bind Double.run];
      [discriminate | apply pow_double_no_value_error].
  - apply pow_double_no_value_error.
Qed.

Lemma float_pow_int_not_complex
  (libm : float -> float -> float * Double.errno) (d : float) (z : Z) :
  (d <? 0)%float = false ->
  Double.run libm (Double.float_pow d (Double.PyInt z))
  <> Double.ComplexValue.
Proof.
  intros Hd. cbn [Double.float_pow]. unfold Double.float_of_int.
  destruct (is_infinity _); cbn [Double.bind Double.run];
    [discriminate | now apply pow_double_not_complex].
Qed.

(** With a base of exactly 1.0 the platform's [pow] is never asked: the
    power is 1.0, unless the int exponent is too large for a float. *)
Lemma float_pow_base_one (z : Z) :
  Double.float_pow 1 (Double.PyInt z) = Double.Ret 1%float
  \/ Double.float_pow 1 (Double.PyInt z) = Double.Raise Double.OverflowError.
Proof.
  cbn [Double.float_pow]. unfold Double.float_of_int.
  destruct (is_infinity _); cbn [Double.bind]; [now right|].
  left. apply pow_double_base_one.
Qed.

Lemma float_pow_exponent_zero (d : float) :
  Double.float_pow d (Double.PyInt 0) = Double.Ret 1%float.
Proof. reflexivity. Qed.

(** A rate of zero, of either sign, gives a daily factor of exactly 1.0. *)
Lemma dailyFactor_zero_rate (t : Double.Mortgage) :
  (Double.interest t =? 0)%float = true -> Double.dailyFactor t = 1%float.
Proof.
  intros H. unfold Double.dailyFactor.
  destruct (eqb_zero_cases _ H) as [-> | ->]; reflexivity.
Qed.

(** [repayments] with a daily factor of exactly 1.0. *)
Lemma repayments_unit_factor (t : Double.Mortgage) :
  Double.dailyFactor t = 1%float ->
  Double.repayments t = Double.Raise Double.ZeroDivisionError
  \/ Double.repayments t = Double.Raise Double.OverflowError.
Proof.
  intros H. unfold Double.repayments. cbv zeta.
  fold (Double.dailyFactor t). rewrite H.
  destruct (float_pow_base_one (365 * Double.years t)) as [-> | ->];
    cbn [Double.bind]; [|now right].
  destruct (float_pow_base_one (Double.r_frequency t)) as [-> | ->];
    cbn [Double.bind]; [|now right].
  left. reflexivity.
Qed.

(** [repayments] at a rate of zero. *)
Lemma repayments_zero_rate (t : Double.Mortgage) :
  (Double.interest t =? 0)%float = true ->
  Double.repayments t = Double.Raise Double.ZeroDivisionError
  \/ Double.repayments t = Double.Raise Double.OverflowError.
Proof.
  intros H. apply repayments_unit_factor. now apply dailyFactor_zero_rate.
Qed.

(** [repayments] on a term of zero years never returns a value. *)
Lemma repayments_zero_term
  (libm : float -> float -> float * Double.errno) (t : Double.Mortgage) :
  Double.years t = 0%Z ->
  (forall v, Double.run libm (Double.repayments t) <> Double.Ret v)
  /\ ((Double.dailyFactor t <? 0)%float = false ->
      exists e, Double.run libm (Double.repayments t) = Double.Raise e).
Proof.
  intros Hy. unfold Double.repayments. cbv zeta.
  fold (Double.dailyFactor t). rewrite Hy.
  change (365 * 0)%Z with 0%Z. rewrite float_pow_exponent_zero.
  cbn [Double.bind]. rewrite run_bind.
  pose proof (float_pow_int_not_complex libm (Double.dailyFactor t)
                (Double.r_frequency t)) as Hc.
  pose proof (run_not_libm libm
                (Double.float_pow (Double.dailyFactor t)
                   (Double.PyInt (Double.r_frequency t)))) as Hl.
  destruct (Double.run libm
              (Double.float_pow (Double.dailyFactor t)
                 (Double.PyInt (Double.r_frequency t))))
    as [F|e| |x y k]; cbn [Double.bind Double.run].
  - unfold Double.float_div.
    change ((1 - 1 =? 0)%float) with true. cbn [Double.bind Double.run].
    split; [discriminate | eauto].
  - split; [discriminate | eauto].
  - split; [discriminate | intros Hd; now elim (Hc Hd)].
  - now elim (Hl x y k).
Qed.

Lemma bind_no_value_error_double {A B : Type}
  (libm : float -> float -> float * Double.errno)
  (c : Double.py A) (f : A -> Double.py B) :
  (forall msg, Double.run libm c <> Double.Raise (Double.ValueError msg)) ->
  (forall a msg,
     Double.run libm (f a) <> Double.Raise (Double.ValueError msg)) ->
  forall msg,
    Double.run libm (Double.bind c f) <> Double.Raise (Double.ValueError msg).
Proof.
  intros Hc Hf msg. rewrite run_bind.
  destruct (Double.run libm c) as [a|e| |x y k] eqn:E; cbn [Double.bind].
  - apply Hf.
  - intros H. apply (Hc msg). congruence.
  - discriminate.
  - discriminate.
Qed.

Lemma float_div_no_value_error_double
  (libm : float -> float -> float * Double.errno) (a b : float)
  (msg : string) :
  Double.run libm (Double.float_div a b)
  <> Double.Raise (Double.ValueError msg).
Proof.
  unfold Double.float_div. destruct (b =? 0)%float; discriminate.
Qed.

Ltac no_value_error_double :=
  repeat first
    [ apply float_pow_no_value_error_double
    | apply float_div_no_value_error_double
    | apply bind_no_value_error_double; [intros ?|intros ? ?]
    | progress cbn [Double.run]
    | discriminate ].

Lemma repayments_no_value_error_double
  (libm : float -> float -> float * Double.errno) (t : Double.Mortgage)
  (msg : string) :
  Double.run libm (Double.repayments t)
  <> Double.Raise (Double.ValueError msg).
Proof.
  revert msg. unfold Double.repayments. cbv zeta. no_value_error_double.
Qed.

(** Past its guard [balance_after] raises no [ValueError]. *)
Lemma balance_after_guard_only
  (libm : float -> float -> float * Double.errno) (t : Double.Mortgage)
  (n : Double.number) (msg : string) :
  Double.run libm (Double.balance_after t n)
  = Double.Raise (Double.ValueError msg)
  <-> (Double.lt_zero n || Double.gt_int n (Double.years t) = true
       /\ msg = Double.range_message).
Proof.
  unfold Double.balance_after. cbv zeta.
  destruct (Double.lt_zero n || Double.gt_int n (Double.years t)).
  - cbn [Double.run]. split.
    + intros H. injection H as <-. auto.
    + intros [_ ->]. reflexivity.
  - split; [|intros [H _]; discriminate].
    intros H. exfalso. revert H. generalize msg.
    apply bind_no_value_error_double;
      [intros m; apply repayments_no_value_error_double|].
    intros P0. no_value_error_double.
Qed.

(** ** Double precision: the balance before any year has passed *)


(** A product with zero, divided by anything, is a zero or [nan]. *)
Lemma zero_product_quotient (a w : float) :
  ((a * 0 / w =? 0)%float = true) \/ is_nan (a * 0 / w)%float = true.
Proof.
  rewrite eqb_zero_spec, is_nan_spec, div_spec, mul_spec.
  change (Prim2SF 0%float) with (S754_zero false).
  destruct (Prim2SF a) as [sa|sa| |sa ma ea];
    destruct (Prim2SF w) as [sw|sw| |sw mw ew]; cbn; eauto.
Qed.

(** ** Claims on the amounts, in double precision *)

Lemma tiny_rate_valid : Double.valid Double.tiny_rate.
Proof.
  constructor; [reflexivity | reflexivity | reflexivity | left; reflexivity].
Qed.








(** C10, as stated, fails: on the same valid loan [balance_after] raises
    [ZeroDivisionError] for half a year, which passes the range check. *)
Lemma C10_counterexample :
  Double.valid Double.tiny_rate
  /\ Double.lt_zero (Double.PyFloat 0.5) = false
  /\ Double.gt_int (Double.PyFloat 0.5) (Double.years Double.tiny_rate)
     = false
  /\ Double.balance_after Double.tiny_rate (Double.PyFloat 0.5)
     = Double.Raise Double.ZeroDivisionError.
Proof.
  split; [exact tiny_rate_valid | repeat split; reflexivity].
Qed.

(** C10, amended.  [balance_after] takes a float number of years [x],
    whole or not.  It raises the [ValueError] of its range check exactly
    when [x < 0] or [x > years], compared by value.  Otherwise it returns
    [b] exactly when [repayments] returns, with value [P0], the powers
    dailyFactor^(365*x) and dailyFactor^k return, with values [X] and
    [F], the difference [F - 1] is not zero, and [b] is
    principal * X - P0 * ((X - 1) / (F - 1)) in double precision. *)
Theorem C10_balance_float_years
  (libm : float -> float -> float * Double.errno) (t : Double.Mortgage)
  (x : float) :
  ((exists msg : string,
      Double.run libm (Double.balance_after t (Double.PyFloat x))
      = Double.Raise (Double.ValueError msg))
   <-> ((x <? 0)%float = true
        \/ Double.float_gt_int x (Double.years t) = true))
  /\ (forall b : float,
        Double.run libm (Double.balance_after t (Double.PyFloat x))
        = Double.Ret b
        <-> (x <? 0)%float = false
            /\ Double.float_gt_int x (Double.years t) = false
            /\ exists P0 X F : float,
                 Double.run libm (Double.repayments t) = Double.Ret P0
                 /\ Double.run libm
                      (Double.float_pow (Double.dailyFactor t)
                         (Double.PyFloat (365 * x))) = Double.Ret X
                 /\ Double.run libm
                      (Double.float_pow (Double.dailyFactor t)
                         (Double.PyInt (Double.r_frequency t)))
                    = Double.Ret F
                 /\ (F - 1 =? 0)%float = false
                 /\ b = Double.spec_balance (Double.loan t) X F P0).
Proof.
  split.
  - split.
    + intros [msg H]. apply balance_after_guard_only in H as [H _].
      apply orb_true_iff in H. exact H.
    + intros H. exists Double.range_message.
      apply balance_after_guard_only. split; [|reflexivity].
      apply orb_true_iff. exact H.
  - intros b. apply balance_after_returns.
Qed.

Lemma C10_balance_float_years_witness :
  exists b : float,
    Double.run Double.sample_pow
      (Double.balance_after Double.sample (Double.PyFloat 0.5))
    = Double.Ret b
    /\ (0.5 <? 0)%float = false
    /\ Double.float_gt_int 0.5 (Double.years Double.sample) = false
    /\ exists P0 X F : float,
         Double.run Double.sample_pow (Double.repayments Double.sample)
         = Double.Ret P0
         /\ Double.run Double.sample_pow
              (Double.float_pow (Double.dailyFactor Double.sample)
                 (Double.PyFloat (365 * 0.5))) = Double.Ret X
         /\ Double.run Double.sample_pow
              (Double.float_pow (Double.dailyFactor Double.sample)
                 (Double.PyInt (Double.r_frequency Double.sample)))
            = Double.Ret F
         /\ (F - 1 =? 0)%float = false
         /\ b = Double.spec_balance (Double.loan Double.sample) X F P0.
Proof.
  eexists. split; [vm_compute; reflexivity|].
  apply (proj1 (proj2 (C10_balance_float_years Double.sample_pow
                         Double.sample 0.5) _)).
  vm_compute. reflexivity.
Defined.






(** C4, amended.  [repayments] checks none of its arguments and raises no
    [ValueError].  At a rate of zero it raises [ZeroDivisionError] or
    [OverflowError]; on a term of zero years it never returns a value,
    and raises an exception when the rate is positive.  A rate below zero
    need not make it fail: at -36500 % it returns 0.0. *)
Theorem C4_repayments_unchecked_double
  (libm : float -> float -> float * Double.errno) (t : Double.Mortgage) :
  (forall msg : string,
     Double.run libm (Double.repayments t)
     <> Double.Raise (Double.ValueError msg))
  /\ ((Double.interest t =? 0)%float = true ->
      Double.run libm (Double.repayments t)
      = Double.Raise Double.ZeroDivisionError
      \/ Double.run libm (Double.repayments t)
         = Double.Raise Double.OverflowError)
  /\ (Double.years t = 0%Z ->
      (forall v : float,
         Double.run libm (Double.repayments t) <> Double.Ret v)
      /\ ((0 <? Double.interest t)%float = true ->
          exists e : Double.exn,
            Double.run libm (Double.repayments t) = Double.Raise e))
  /\ Double.repayments Double.negative_rate = Double.Ret 0%float.
Proof.
  split; [|split; [|split]].
  - intros msg. apply repayments_no_value_error_double.
  - intros Hi.
    destruct (repayments_zero_rate t Hi) as [-> | ->]; cbn [Double.run];
      auto.
  - intros Hy. destruct (repayments_zero_term libm t Hy) as [Hnever Hraise].
    split; [exact Hnever|].
    intros Hi. apply Hraise. now apply dailyFactor_not_negative.
  - reflexivity.
Qed.

Lemma C4_repayments_unchecked_double_witness :
  ((Double.interest Double.zero_rate =? 0)%float = true
   /\ (Double.run Double.sample_pow (Double.repayments Double.zero_rate)
       = Double.Raise Double.ZeroDivisionError
       \/ Double.run Double.sample_pow (Double.repayments Double.zero_rate)
          = Double.Raise Double.OverflowError))
  /\ (Double.years Double.zero_term = 0%Z
      /\ (0 <? Double.interest Double.zero_term)%float = true
      /\ exists e : Double.exn,
           Double.run Double.sample_pow (Double.repayments Double.zero_term)
           = Double.Raise e).
Proof.
  assert (Hi : (Double.interest Double.zero_rate =? 0)%float = true)
    by reflexivity.
  assert (Hy : Double.years Double.zero_term = 0%Z) by reflexivity.
  assert (Hp : (0 <? Double.interest Double.zero_term)%float = true)
    by reflexivity.
  split.
  - split; [exact Hi|].
    exact (proj1 (proj2 (C4_repayments_unchecked_double Double.sample_pow
                           Double.zero_rate)) Hi).
  - split; [exact Hy | split; [exact Hp|]].
    exact (proj2 (proj1 (proj2 (proj2
             (C4_repayments_unchecked_double Double.sample_pow
                Double.zero_term))) Hy) Hp).
Defined.










(** ** Further properties in double precision *)

(** X7. A loan with a term of zero years or a rate of zero has no
    balance: whatever the number of years asked for and whatever the
    platform's [pow] answers, [balance_after] returns no value. *)
Theorem X7_no_balance_zero_rate_or_term
  (libm : float -> float -> float * Double.errno) (t : Double.Mortgage)
  (n : Double.number) :
  Double.years t = 0%Z \/ (Double.interest t =? 0)%float = true ->
  forall v : float,
    Double.run libm (Double.balance_after t n) <> Double.Ret v.
Proof.
  intros Hdeg v H.
  apply balance_after_returns in H as [_ [_ [P0 [X [F [HP _]]]]]].
  destruct Hdeg as [Hy|Hi].
  - now apply (proj1 (repayments_zero_term libm t Hy) P0).
  - destruct (repayments_zero_rate t Hi) as [E|E]; rewrite E in HP;
      discriminate HP.
Qed.

Lemma X7_no_balance_zero_rate_or_term_witness :
  (Double.years Double.zero_rate = 0%Z
   \/ (Double.interest Double.zero_rate =? 0)%float = true)
  /\ forall v : float,
       Double.run Double.sample_pow
         (Double.balance_after Double.zero_rate (Double.PyInt 1))
       <> Double.Ret v.
Proof.
  assert (H : Double.years Double.zero_rate = 0%Z
              \/ (Double.interest Double.zero_rate =? 0)%float = true)
    by (right; reflexivity).
  split; [exact H|].
  exact (X7_no_balance_zero_rate_or_term Double.sample_pow Double.zero_rate
           (Double.PyInt 1) H).
Defined.

(** X8. A repayment interval of zero days is not rejected, and no balance
    can be had with it: [balance_after] returns no value, whatever the
    year and the platform's [pow], and an amount that [repayments]
    returns is a zero or [nan]. *)
Theorem X8_zero_interval_double
  (libm : float -> float -> float * Double.errno) (t : Double.Mortgage) :
  Double.r_frequency t = 0%Z ->
  (forall (n : Double.number) (v : float),
     Double.run libm (Double.balance_after t n) <> Double.Ret v)
  /\ (forall P0 : float,
        Double.run libm (Double.repayments t) = Double.Ret P0 ->
        (P0 =? 0)%float = true \/ is_nan P0 = true).
Proof.
  intros Hk. split.
  - intros n v H.
    apply balance_after_returns in H
      as [_ [_ [P0 [X [F [_ [_ [HF [Hz _]]]]]]]]].
    rewrite Hk, float_pow_exponent_zero in HF. cbn [Double.run] in HF.
    injection HF as <-. discriminate Hz.
  - intros P0 H.
    apply repayments_returns in H as [D [F [_ [HF [_ ->]]]]].
    rewrite Hk, float_pow_exponent_zero in HF. cbn [Double.run] in HF.
    injection HF as <-. unfold Double.spec_repayment.
    change (1 - 1)%float with 0%float.
    apply zero_product_quotient.
Qed.

Lemma X8_zero_interval_double_witness :
  Double.r_frequency (Double.mkMortgage 1000 2 3.75 0) = 0%Z
  /\ (forall (n : Double.number) (v : float),
        Double.run Double.sample_pow
          (Double.balance_after (Double.mkMortgage 1000 2 3.75 0) n)
        <> Double.Ret v)
  /\ (forall P0 : float,
        Double.run Double.sample_pow
          (Double.repayments (Double.mkMortgage 1000 2 3.75 0))
        = Double.Ret P0 ->
        (P0 =? 0)%float = true \/ is_nan P0 = true).
Proof.
  assert (Hk : Double.r_frequency (Double.mkMortgage 1000 2 3.75 0) = 0%Z)
    by reflexivity.
  split; [exact Hk|].
  exact (X8_zero_interval_double Double.sample_pow
           (Double.mkMortgage 1000 2 3.75 0) Hk).
Defined.

(** X20. Whatever [main] reads, the four values it builds the [Mortgage]
    from, when the two floats are numbers, have passed its checks: the
    loan, the term and the rate are positive and the interval is 7, 14 or
    30 days. *)
Theorem X20_inputs_pass_checks (float : string -> option float_value)
  (int : string -> option Z) (stdin : list string)
  (L r : R) (Y k : Z) (rest : list string) (out : list event) :
  Main.collect_inputs float int stdin
  = Done (Real L, Y, Real r, k) rest out ->
  0 < L /\ (0 < Y)%Z /\ 0 < r /\ supported_frequency k.
Proof.
  unfold Main.collect_inputs. intros H.
  apply and_then_done in H as [v1 [s1 [o1 [o1' [H1 [H _]]]]]].
  apply emit_done in H as [o2 [H _]].
  apply and_then_done in H as [v2 [s2 [o3 [o3' [H2 [H _]]]]]].
  apply emit_done in H as [o4 [H _]].
  apply and_then_done in H as [v3 [s3 [o5 [o5' [H3 [H _]]]]]].
  apply emit_done in H as [o6 [H _]].
  apply and_then_done in H as [v4 [s4 [o7 [o7' [H4 [H _]]]]]].
  injection H as -> -> -> -> _ _.
  apply get_positive_float_done in H1 as [[x [Hx HL]]|[?|?]];
    try discriminate.
  injection Hx as <-.
  apply get_positive_float_done in H3 as [[x [Hx Hr]]|[?|?]];
    try discriminate.
  injection Hx as <-.
  apply get_positive_int_done in H2 as [HY _].
  apply get_repayment_frequency_done in H4 as [Hk _].
  auto.
Qed.

Lemma X20_inputs_pass_checks_witness :
  (exists out : list event,
     Main.collect_inputs float_sample int_sample
       ["-5"; "1000"; "2"; "3.65"; "10"; "7"]%string
     = Done (Real 1000, 2%Z, Real (365 / 100), 7%Z) [] out)
  /\ 0 < 1000 /\ (0 < 2)%Z /\ 0 < 365 / 100 /\ supported_frequency 7.
Proof.
  assert (Hle : forall x : R, x <= 0 -> float_le_zero (Real x) = true).
  { intros x Hx. cbn [float_le_zero].
    destruct (Rle_dec x 0); [reflexivity | contradiction]. }
  assert (Hgt : forall x : R, 0 < x -> float_le_zero (Real x) = false).
  { intros x Hx. cbn [float_le_zero].
    destruct (Rle_dec x 0); [lra | reflexivity]. }
  assert (H : exists out : list event,
                Main.collect_inputs float_sample int_sample
                  ["-5"; "1000"; "2"; "3.65"; "10"; "7"]%string
                = Done (Real 1000, 2%Z, Real (365 / 100), 7%Z) [] out).
  { unfold Main.collect_inputs.
    cbn [Main.get_positive_float float_sample String.eqb Ascii.eqb
         Bool.eqb].
    rewrite (Hle (-5)) by lra. rewrite (Hgt 1000) by lra.
    cbn [emit and_then Main.get_positive_int int_sample String.eqb
         Ascii.eqb Bool.eqb Z.leb Z.compare app
         Main.get_positive_float float_sample].
    rewrite (Hgt (365 / 100)) by lra.
    cbn. eauto. }
  split; [exact H|].
  destruct H as [out H].
  exact (X20_inputs_pass_checks float_sample int_sample _ _ _ _ _ _ _ H).
Defined.

(** X22. When the rate is so small that the daily factor
    1 + (rate/100)/365 rounds to exactly 1.0, [repayments] cannot return:
    without asking the platform's [pow] it raises [ZeroDivisionError], or
    [OverflowError] when an exponent is too large for a float; and
    [balance_after] then returns no value either. *)
Theorem X22_unit_daily_factor
  (libm : float -> float -> float * Double.errno) (t : Double.Mortgage)
  (n : Double.number) :
  Double.dailyFactor t = 1%float ->
  (Double.repayments t = Double.Raise Double.ZeroDivisionError
   \/ Double.repayments t = Double.Raise Double.OverflowError)
  /\ forall v : float,
       Double.run libm (Double.balance_after t n) <> Double.Ret v.
Proof.
  intros Hd. pose proof (repayments_unit_factor t Hd) as Hr.
  split; [exact Hr|].
  intros v H.
  apply balance_after_returns in H as [_ [_ [P0 [X [F [HP _]]]]]].
  destruct Hr as [E|E]; rewrite E in HP; discriminate HP.
Qed.

Lemma X22_unit_daily_factor_witness :
  Double.dailyFactor Double.tiny_rate_monthly = 1%float
  /\ (Double.repayments Double.tiny_rate_monthly
      = Double.Raise Double.ZeroDivisionError
      \/ Double.repayments Double.tiny_rate_monthly
         = Double.Raise Double.OverflowError)
  /\ forall v : float,
       Double.run Double.sample_pow
         (Double.balance_after Double.tiny_rate_monthly (Double.PyInt 15))
       <> Double.Ret v.
Proof.
  assert (Hd : Double.dailyFactor Double.tiny_rate_monthly = 1%float)
    by reflexivity.
  split; [exact Hd|].
  exact (X22_unit_daily_factor Double.sample_pow Double.tiny_rate_monthly
           (Double.PyInt 15) Hd).
Defined.
